(** * Palindrome toolkit (src/palindrome_app.py): embedding and properties

    The functions of [palindrome_app.py] are embedded as Rocq functions over
    Python values: a [str] is a list of Unicode code points, an [int] is a [Z],
    a [set] of strings is a [gset], and a Python call that can raise returns in
    the [result] monad. *)

From Stdlib Require Import ZArith NArith Ascii String.
From Stdlib Require Import DecimalString DecimalZ.
From stdpp Require Import base numbers list gmap.

Local Open Scope Z_scope.

(** ** Python values *)

(** A character is a Unicode code point; a [str] is a sequence of them. *)
Abbreviation char := N (only parsing).
Abbreviation str := (list N) (only parsing).

(** String literals of the source, as sequences of code points. *)
Definition of_string (s : string) : str :=
  map N_of_ascii (list_ascii_of_string s).

(** ** Exceptions *)

Inductive exception : Type :=
  | ValueError.

Inductive result (A : Type) : Type :=
  | Ok (a : A)
  | Raise (e : exception).
Arguments Ok {A} a.
Arguments Raise {A} e.

Module PyMonad.

Definition bind {A B : Type} (m : result A) (k : A → result B) : result B :=
  match m with
  | Ok a => k a
  | Raise e => Raise e
  end.

(** A [for] loop over the items [l], threading the loop state. *)
Fixpoint for_each {A S : Type} (l : list A) (body : A → S → result S)
    (s : S) : result S :=
  match l with
  | [] => Ok s
  | x :: l' => bind (body x s) (for_each l' body)
  end.

End PyMonad.

Notation "'let!' x ':=' m 'in' k" := (PyMonad.bind m (fun x => k))
  (at level 10, x name, m at level 100, k at level 200).

(** ** Built-ins used by the source *)

Module Py.

(** [range(start, stop)] *)
Definition range (start stop : Z) : list Z :=
  seqZ start (stop - start).

(** Slicing, [s[start:stop:step]].  The bounds are adjusted as CPython's
    [PySlice_Unpack] and [PySlice_AdjustIndices] do; a zero step raises. *)
Definition adjust_index (len step i : Z) : Z :=
  if i <? 0 then
    if i + len <? 0 then (if step <? 0 then -1 else 0) else i + len
  else if len <=? i then (if step <? 0 then len - 1 else len)
  else i.

Definition slice_start (len step : Z) (start : option Z) : Z :=
  match start with
  | Some i => adjust_index len step i
  | None => if step <? 0 then len - 1 else 0
  end.

Definition slice_stop (len step : Z) (stop : option Z) : Z :=
  match stop with
  | Some i => adjust_index len step i
  | None => if step <? 0 then -1 else len
  end.

Definition slice_length (start stop step : Z) : Z :=
  if step <? 0 then
    if stop <? start then (start - stop - 1) / (- step) + 1 else 0
  else
    if start <? stop then (stop - start - 1) / step + 1 else 0.

(** The item at an adjusted index. *)
Definition item {A : Type} (s : list A) (i : Z) : option A :=
  if i <? 0 then None else s !! Z.to_nat i.

(** The items at [start], [start + step], ... ([count] of them). *)
Fixpoint items {A : Type} (s : list A) (start step : Z) (count : nat)
    : list A :=
  match count with
  | O => []
  | S count' =>
      match item s start with
      | Some x => x :: items s (start + step) step count'
      | None => items s (start + step) step count'
      end
  end.

Definition slice {A : Type} (s : list A) (start stop step : option Z)
    : result (list A) :=
  let step := default 1 step in
  if step =? 0 then Raise ValueError
  else
    let len := Z.of_nat (length s) in
    let start := slice_start len step start in
    let stop := slice_stop len step stop in
    Ok (items s start step (Z.to_nat (slice_length start stop step))).

(** [len(s)] *)
Definition len {A : Type} (s : list A) : Z := Z.of_nat (length s).

(** Truth value of a sequence: [not s] holds of the empty one only. *)
Definition falsy {A : Type} (s : list A) : bool :=
  match s with [] => true | _ => false end.

(** [a == b] on strings. *)
Definition str_eq (a b : str) : bool := bool_decide (a = b).

End Py.

(** *** Integers as decimal strings *)

Module PyInt.

(** The decimal numeral of [n]: its digits, most significant first, after
    a minus sign when [n] is negative. *)
Definition decimal (n : Z) : string :=
  NilZero.string_of_int (Z.to_int n).

Definition numeral (n : Z) : str := of_string (decimal n).

(** The number of digits of [n], its sign apart. *)
Definition num_digits (n : Z) : Z := Py.len (numeral (Z.abs n)).

(** The interpreter's limit on the digits of a conversion between [int] and
    [str] ([sys.get_int_max_str_digits()]): 4300 unless it is set otherwise in
    CPython 3.11 and later, 0 where conversions are not limited. *)
Definition default_max_str_digits : Z := 4300.

Definition exceeds (max_str_digits n : Z) : bool :=
  (0 <? max_str_digits) && (max_str_digits <? num_digits n).

(** [str(n)] for an [int]: the numeral of [n], or a [ValueError] when the
    interpreter limits conversions and [n] has more digits than the limit. *)
Definition to_str (max_str_digits n : Z) : result str :=
  if exceeds max_str_digits n then Raise ValueError else Ok (numeral n).

End PyInt.

(** *** Regular expressions: [re.sub] with a one-character pattern *)

Module Re.

Definition code (a : ascii) : char := N_of_ascii a.

Definition in_range (lo hi : ascii) (c : char) : bool :=
  ((code lo <=? c) && (c <=? code hi))%N.

(** The set [a-zA-Z0-9]. *)
Definition alnum_class (c : char) : bool :=
  in_range "a" "z" c || in_range "A" "Z" c || in_range "0" "9" c.

(** The pattern [[^a-zA-Z0-9]]: one character outside the set. *)
Definition non_alnum (c : char) : bool := negb (alnum_class c).

(** [re.sub(pattern, repl, s)] for a pattern that matches exactly one
    character: scanning left to right, every match is replaced by [repl]. *)
Fixpoint sub (pattern : char → bool) (repl s : str) : str :=
  match s with
  | [] => []
  | c :: s' =>
      if pattern c then repl ++ sub pattern repl s'
      else c :: sub pattern repl s'
  end.

End Re.

(** *** The Unicode character database

    [str.lower] and [str.isalnum] read the interpreter's Unicode tables.  The
    entries of the ASCII code points are written out below; the entries of the
    other code points are the fields of a [unicode_db]. *)

Record unicode_db : Type := UnicodeDb {
  (** the full lower-case mapping of a code point: one to three code points *)
  to_lower_full : char → str;
  (** whether the capital sigma at a position of a string is word-final *)
  final_sigma : str → nat → bool;
  (** whether a code point is a letter, a decimal, a digit or numeric *)
  is_alnum : char → bool
}.

Module Str.

Definition is_ascii (c : char) : bool := (c <? 128)%N.

(** Lower-case mapping of an ASCII code point: [A-Z] to [a-z]. *)
Definition ascii_lower (c : char) : char :=
  if Re.in_range "A" "Z" c then (c + 32)%N else c.

Definition capital_sigma : char := 931%N.      (* U+03A3 *)
Definition small_final_sigma : char := 962%N.  (* U+03C2 *)
Definition small_sigma : char := 963%N.        (* U+03C3 *)

(** The lower-case mapping of the character [c] at position [i] of [s]. *)
Definition lower_ucs4 (ucd : unicode_db) (s : str) (i : nat) (c : char)
    : str :=
  if (c =? capital_sigma)%N then
    [if final_sigma ucd s i then small_final_sigma else small_sigma]
  else if is_ascii c then [ascii_lower c]
  else to_lower_full ucd c.

Fixpoint do_lower (ucd : unicode_db) (s : str) (i : nat) (rest : str)
    : str :=
  match rest with
  | [] => []
  | c :: rest' => lower_ucs4 ucd s i c ++ do_lower ucd s (S i) rest'
  end.

(** [s.lower()] *)
Definition lower (ucd : unicode_db) (s : str) : str := do_lower ucd s 0 s.

Definition char_isalnum (ucd : unicode_db) (c : char) : bool :=
  if is_ascii c then Re.alnum_class c else is_alnum ucd c.

(** [s.isalnum()]: at least one character, all of them alphanumeric. *)
Definition isalnum (ucd : unicode_db) (s : str) : bool :=
  negb (Py.falsy s) && forallb (char_isalnum ucd) s.

End Str.

(** ** The functions of palindrome_app.py *)

Section WithUnicode.
Context (ucd : unicode_db).

(** The text [is_palindrome] compares with its reversal (the value of
    [processed] before the [return]). *)
Definition processed_text (text : str) (ignore_case ignore_spaces : bool)
    : str :=
  let processed := text in
  let processed :=
    if ignore_spaces then Re.sub Re.non_alnum [] processed
    else processed in
  let processed :=
    if ignore_case then Str.lower ucd processed else processed in
  processed.

Definition is_palindrome (text : str) (ignore_case ignore_spaces : bool)
    : result bool :=
  if Py.falsy text then Ok false
  else
    let processed := processed_text text ignore_case ignore_spaces in
    let! reversed := Py.slice processed None None (Some (-1)) in
    Ok (Py.str_eq processed reversed).

(** The body of the inner loop of [find_palindromes]. *)
Definition find_palindromes_step (text text_lower : str) (i j : Z)
    (palindromes : gset str) : result (gset str) :=
  let! substring := Py.slice text_lower (Some i) (Some j) None in
  if Str.isalnum ucd substring then
    let! reversed := Py.slice substring None None (Some (-1)) in
    if Py.str_eq substring reversed then
      let! original := Py.slice text (Some i) (Some j) None in
      Ok ({[ original ]} ∪ palindromes)
    else Ok palindromes
  else Ok palindromes.

Definition find_palindromes (text : str) (min_length : Z)
    : result (gset str) :=
  if Py.falsy text || (Py.len text <? min_length) then Ok ∅
  else
    let palindromes : gset str := ∅ in
    let text_lower := Str.lower ucd text in
    let n := Py.len text_lower in
    PyMonad.for_each (Py.range 0 n)
      (λ i palindromes,
         PyMonad.for_each (Py.range (i + min_length) (n + 1))
           (λ j palindromes,
              find_palindromes_step text text_lower i j palindromes)
           palindromes)
      palindromes.

End WithUnicode.

(** The argument of [is_number_palindrome]: an [int] or a [str]. *)
Inductive number : Type :=
  | Int (n : Z)
  | Str (s : str).

(** [str(number)], under the interpreter's limit on conversions. *)
Definition str_of (max_str_digits : Z) (x : number) : result str :=
  match x with
  | Int n => PyInt.to_str max_str_digits n
  | Str s => Ok s
  end.

(** The inputs of [is_number_palindrome] that [str] converts. *)
Definition convertible (max_str_digits : Z) (x : number) : bool :=
  match x with
  | Int n => negb (PyInt.exceeds max_str_digits n)
  | Str _ => true
  end.

Definition is_number_palindrome (max_str_digits : Z) (x : number)
    : result bool :=
  let! num_str := str_of max_str_digits x in
  let! reversed := Py.slice num_str None None (Some (-1)) in
  Ok (Py.str_eq num_str reversed).

Definition is_strict_palindrome (text : str) : result bool :=
  if Py.falsy text then Ok false
  else
    let! reversed := Py.slice text None None (Some (-1)) in
    Ok (Py.str_eq text reversed).

Definition generate_palindrome (word : str) : result str :=
  if Py.falsy word then Ok []
  else
    let! mirrored := Py.slice word (Some (-2)) None (Some (-1)) in
    Ok (word ++ mirrored).

Definition generate_palindrome_symmetric (word : str) : result str :=
  if Py.falsy word then Ok []
  else if 1 <? Py.len word then
    let! mirrored := Py.slice word (Some (-2)) None (Some (-1)) in
    Ok (word ++ mirrored)
  else Ok word.

(** ** The search, as a list

    What the two loops of [find_palindromes] collect, written as a list: the
    slice [text[i:j]] of every pair [(i, j)] of the loops whose slice of the
    lower-cased text passes the test. *)

(** [s[i:j]] for [0 <= i]. *)
Definition substr (s : str) (i j : Z) : str :=
  take (Z.to_nat (Py.adjust_index (Py.len s) 1 j) - Z.to_nat i)
    (drop (Z.to_nat i) s).

Definition found_at (ucd : unicode_db) (text text_lower : str) (i j : Z)
    : list str :=
  let substring := substr text_lower i j in
  if Str.isalnum ucd substring && Py.str_eq substring (reverse substring)
  then [substr text i j]
  else [].

Definition found_list (ucd : unicode_db) (text : str) (min_length : Z)
    : list str :=
  let text_lower := Str.lower ucd text in
  let n := Py.len text_lower in
  flat_map
    (λ i, flat_map (found_at ucd text text_lower i)
            (Py.range (i + min_length) (n + 1)))
    (Py.range 0 n).

(** Two texts that start with U+0130, the capital I with a dot above:
    ["İaba"] and ["İaba!"]. *)
Definition dotted_I : N := 304%N.
Definition text_Iaba : str := dotted_I :: of_string "aba".
Definition text_Iaba_bang : str := dotted_I :: of_string "aba!".

(** The characters of a decimal numeral. *)
Definition minus_sign : N := Re.code "-".

Definition is_digit (c : N) : bool := Re.in_range "0" "9" c.

(** The word without its last character: what [word[-2::-1]] reverses. *)
Definition but_last (word : str) : str := take (length word - 1) word.

(** [p] is a run of consecutive characters of [text]. *)
Definition substring_of (p text : str) : Prop :=
  ∃ before after, text = before ++ p ++ after.

(** ** A sample of the Unicode database, to run the functions on examples

    The entries are those of the Unicode character database for U+00C9,
    U+00E9, U+0130 and U+0307; every other code point outside ASCII is left
    unmapped and not alphanumeric. *)
Definition ucd_sample : unicode_db :=
  {| to_lower_full c :=
       if (c =? 201)%N then [233%N]                (* U+00C9 to U+00E9 *)
       else if (c =? 304)%N then [105%N; 775%N]    (* U+0130 to U+0069 U+0307 *)
       else [c];
     final_sigma _ _ := false;
     is_alnum c := (c =? 201)%N || (c =? 233)%N || (c =? 304)%N |}.

(** *** Slices with step 1 and -1 *)

Section SliceFacts.
Context {A : Type}.
Implicit Types s : list A.

Lemma item_nat s (i : nat) : Py.item s (Z.of_nat i) = s !! i.
Proof.
  unfold Py.item. destruct (Z.ltb_spec (Z.of_nat i) 0); [lia|].
  by rewrite Nat2Z.id.
Qed.

Lemma items_forward s (a n : nat) :
  (a + n ≤ length s)%nat →
  Py.items s (Z.of_nat a) 1 n = take n (drop a s).
Proof.
  revert a. induction n as [|n IH]; intros a Hle.
  - by rewrite take_0.
  - destruct (lookup_lt_is_Some_2 s a ltac:(lia)) as [x Hx].
    cbn [Py.items]. rewrite item_nat, Hx.
    replace (Z.of_nat a + 1) with (Z.of_nat (S a)) by lia.
    rewrite IH by lia.
    rewrite (drop_S _ x a Hx). done.
Qed.

Lemma items_backward s (n : nat) :
  (n ≤ length s)%nat →
  Py.items s (Z.of_nat n - 1) (-1) n = reverse (take n s).
Proof.
  induction n as [|n IH]; intros Hle.
  - done.
  - destruct (lookup_lt_is_Some_2 s n ltac:(lia)) as [x Hx].
    rewrite (take_S_r _ _ x), reverse_snoc by done.
    cbn [Py.items].
    replace (Z.of_nat (S n) - 1) with (Z.of_nat n) by lia.
    rewrite item_nat, Hx. f_equal.
    rewrite <- IH by lia. f_equal.
Qed.

(** [s[::-1]] is the reversed sequence. *)
Lemma slice_reversed s : Py.slice s None None (Some (-1)) = Ok (reverse s).
Proof.
  unfold Py.slice. cbn.
  unfold Py.slice_length. cbn.
  destruct (Z.ltb_spec (-1) (Z.of_nat (length s) - 1)) as [H|H].
  - replace (Z.of_nat (length s) - 1 - -1 - 1) with (Z.of_nat (length s) - 1)
      by lia.
    rewrite Z.div_1_r.
    replace (Z.to_nat (Z.of_nat (length s) - 1 + 1)) with (length s) by lia.
    rewrite items_backward by lia. by rewrite firstn_all.
  - destruct s; [done | simpl in H; lia].
Qed.

(** [s[-2::-1]] is the reversal of [s] without its last item. *)
Lemma slice_mirror s :
  Py.slice s (Some (-2)) None (Some (-1))
  = Ok (reverse (take (length s - 1) s)).
Proof.
  unfold Py.slice. cbn.
  unfold Py.slice_length, Py.adjust_index. cbn.
  destruct (Z.ltb_spec (-2 + Z.of_nat (length s)) 0) as [H|H].
  - cbn. f_equal.
    replace (length s - 1)%nat with 0%nat by lia. done.
  - destruct (Z.ltb_spec (-1) (-2 + Z.of_nat (length s))) as [H'|H']; [|lia].
    replace (-2 + Z.of_nat (length s) - -1 - 1)
      with (Z.of_nat (length s) - 2) by lia.
    rewrite Z.div_1_r.
    replace (Z.to_nat (Z.of_nat (length s) - 2 + 1))
      with (length s - 1)%nat by lia.
    replace (-2 + Z.of_nat (length s))
      with (Z.of_nat (length s - 1) - 1) by lia.
    rewrite items_backward by lia. done.
Qed.

(** [s[i:j]] for [0 <= i]: the items from [i] up to (not including) the
    adjusted [j]. *)
Lemma slice_forward s (i : nat) (j : Z) :
  Py.slice s (Some (Z.of_nat i)) (Some j) None
  = Ok (take (Z.to_nat (Py.adjust_index (Py.len s) 1 j) - i) (drop i s)).
Proof.
  unfold Py.slice, Py.len. cbn.
  set (len := Z.of_nat (length s)).
  set (stop := Py.adjust_index len 1 j).
  assert (0 ≤ stop ≤ len) as Hstop.
  { unfold stop, Py.adjust_index.
    repeat case_match; cbn in *; lia. }
  unfold Py.slice_length. cbn. f_equal.
  unfold Py.adjust_index at 1 2 3. cbn.
  destruct (Z.ltb_spec (Z.of_nat i) 0) as [?|_]; [lia|].
  destruct (Z.leb_spec len (Z.of_nat i)) as [Hi|Hi].
  - destruct (Z.ltb_spec len stop); [lia|]. cbn.
    rewrite drop_ge by lia. by rewrite take_nil.
  - destruct (Z.ltb_spec (Z.of_nat i) stop) as [Hlt|Hge].
    + rewrite Z.div_1_r.
      replace (Z.to_nat (stop - Z.of_nat i - 1 + 1))
        with (Z.to_nat stop - i)%nat by lia.
      apply items_forward. lia.
    + cbn. replace (Z.to_nat stop - i)%nat with 0%nat by lia. done.
Qed.

End SliceFacts.

(** ** The checks, as equations *)

Lemma str_eq_true (a b : str) : Py.str_eq a b = true ↔ a = b.
Proof. unfold Py.str_eq. apply bool_decide_eq_true. Qed.

Lemma str_eq_false (a b : str) : Py.str_eq a b = false ↔ a ≠ b.
Proof. unfold Py.str_eq. apply bool_decide_eq_false. Qed.

Lemma falsy_nil {A : Type} (s : list A) : Py.falsy s = true ↔ s = [].
Proof. by destruct s. Qed.

Lemma falsy_length {A : Type} (s : list A) :
  Py.falsy s = false ↔ (0 < length s)%nat.
Proof. destruct s; simpl; split; intros; first [done | lia]. Qed.

(** The strict check of a non-empty text compares it with its reversal. *)
Lemma is_strict_palindrome_eq (text : str) :
  is_strict_palindrome text
  = Ok (negb (Py.falsy text) && Py.str_eq text (reverse text)).
Proof.
  unfold is_strict_palindrome.
  destruct (Py.falsy text); [done|].
  by rewrite slice_reversed.
Qed.

Lemma is_number_palindrome_eq (max_str_digits : Z) (x : number) :
  is_number_palindrome max_str_digits x
  = let! num_str := str_of max_str_digits x in
    Ok (Py.str_eq num_str (reverse num_str)).
Proof.
  unfold is_number_palindrome.
  destruct (str_of max_str_digits x) as [num_str|e]; [|done].
  cbn [PyMonad.bind]. by rewrite slice_reversed.
Qed.

Lemma is_palindrome_eq (ucd : unicode_db)
    (text : str) (ignore_case ignore_spaces : bool) :
  is_palindrome ucd text ignore_case ignore_spaces
  = let processed := processed_text ucd text ignore_case ignore_spaces in
    Ok (negb (Py.falsy text) && Py.str_eq processed (reverse processed)).
Proof.
  unfold is_palindrome.
  destruct (Py.falsy text); [done|].
  by rewrite slice_reversed.
Qed.

(** ** The generator *)

Lemma but_last_snoc (w : str) (c : N) : but_last (w ++ [c]) = w.
Proof.
  unfold but_last. rewrite length_app. simpl.
  replace (length w + 1 - 1)%nat with (length w) by lia.
  by rewrite take_app_length.
Qed.

Lemma generate_palindrome_eq (word : str) :
  generate_palindrome word = Ok (word ++ reverse (but_last word)).
Proof.
  unfold generate_palindrome.
  destruct word as [|c word]; [done|].
  cbn [Py.falsy]. by rewrite slice_mirror.
Qed.

Lemma mirror_reverse (word : str) :
  reverse (word ++ reverse (but_last word)) = word ++ reverse (but_last word).
Proof.
  destruct word as [|c word _] using rev_ind; [done|].
  rewrite but_last_snoc.
  rewrite reverse_app, reverse_involutive, reverse_snoc.
  by rewrite <- app_assoc.
Qed.

(** C1. For every non-empty word, the string that [generate_palindrome]
    returns passes the strict palindrome check. *)
Theorem generate_palindrome_is_strict (word : str) :
  word ≠ [] →
  PyMonad.bind (generate_palindrome word) is_strict_palindrome = Ok true.
Proof.
  intros Hne.
  rewrite generate_palindrome_eq. cbn [PyMonad.bind].
  rewrite is_strict_palindrome_eq, mirror_reverse.
  destruct word as [|c word]; [done|].
  cbn [app Py.falsy negb andb].
  f_equal. by apply str_eq_true.
Qed.

Lemma generate_palindrome_is_strict_hello :
  of_string "hello" ≠ []
  ∧ PyMonad.bind (generate_palindrome (of_string "hello"))
      is_strict_palindrome = Ok true.
Proof.
  split; [discriminate|].
  apply generate_palindrome_is_strict. discriminate.
Defined.

(** C4. The symmetric variant returns what [generate_palindrome] returns, for
    every word (the empty word and one-character words included). *)
Theorem generate_palindrome_symmetric_same (word : str) :
  generate_palindrome_symmetric word = generate_palindrome word.
Proof.
  unfold generate_palindrome_symmetric, generate_palindrome.
  destruct word as [|c [|c' word]]; [done | | ].
  - by rewrite slice_mirror.
  - cbn [Py.falsy]. unfold Py.len. cbn [length].
    by destruct (Z.ltb_spec 1 (Z.of_nat (S (S (length word))))); [|lia].
Qed.

(** C10. For every non-empty word, [generate_palindrome] returns a string of
    length [2 * len(word) - 1] that starts with the word. *)
Theorem generate_palindrome_length_prefix (word : str) :
  word ≠ [] →
  ∃ palindrome,
    generate_palindrome word = Ok palindrome
    ∧ Py.len palindrome = 2 * Py.len word - 1
    ∧ word `prefix_of` palindrome.
Proof.
  intros Hne. eexists. split; [apply generate_palindrome_eq|]. split.
  - unfold Py.len, but_last.
    rewrite length_app, length_reverse, length_take.
    destruct word; [done|]. simpl. lia.
  - by apply prefix_app_r.
Qed.

Lemma generate_palindrome_length_prefix_python :
  of_string "python" ≠ []
  ∧ ∃ palindrome,
      generate_palindrome (of_string "python") = Ok palindrome
      ∧ Py.len palindrome = 2 * Py.len (of_string "python") - 1
      ∧ of_string "python" `prefix_of` palindrome.
Proof.
  split; [discriminate|].
  apply generate_palindrome_length_prefix. discriminate.
Defined.

(** C7. The empty string is not a palindrome, whatever the options of
    [is_palindrome], and not a strict palindrome either. *)
Theorem empty_is_no_palindrome (ucd : unicode_db)
    (ignore_case ignore_spaces : bool) :
  is_palindrome ucd [] ignore_case ignore_spaces = Ok false
  ∧ is_strict_palindrome [] = Ok false.
Proof. done. Qed.

(** ** Stripping and case folding *)

(** [re.sub(r'[^a-zA-Z0-9]', '', s)] keeps the characters of the set
    [a-zA-Z0-9], in their order, and nothing else. *)
Lemma strip_filter (s : str) :
  Re.sub Re.non_alnum [] s = List.filter Re.alnum_class s.
Proof.
  induction s as [|c s IH]; [done|].
  cbn [Re.sub List.filter]. rewrite IH. unfold Re.non_alnum.
  by destruct (Re.alnum_class c).
Qed.

Lemma strip_elem_of (s : str) (c : N) :
  c ∈ Re.sub Re.non_alnum [] s ↔ c ∈ s ∧ Re.alnum_class c = true.
Proof.
  rewrite strip_filter, !list_elem_of_In. apply filter_In.
Qed.

Lemma strip_alnum (s : str) :
  Forall (λ c, Re.alnum_class c = true) (Re.sub Re.non_alnum [] s).
Proof. apply Forall_forall. intros c Hc. by apply strip_elem_of in Hc as [_ ?]. Qed.

Lemma strip_fixed (s : str) :
  Forall (λ c, Re.alnum_class c = true) s → Re.sub Re.non_alnum [] s = s.
Proof.
  induction 1 as [|c s Hc _ IH]; [done|].
  cbn [Re.sub]. rewrite IH. unfold Re.non_alnum. by rewrite Hc.
Qed.

Lemma strip_none (s : str) :
  Forall (λ c, Re.alnum_class c = false) s → Re.sub Re.non_alnum [] s = [].
Proof.
  induction 1 as [|c s Hc _ IH]; [done|].
  cbn [Re.sub]. rewrite IH. unfold Re.non_alnum. by rewrite Hc.
Qed.

Lemma strip_nonempty (s : str) :
  Exists (λ c, Re.alnum_class c = true) s → Re.sub Re.non_alnum [] s ≠ [].
Proof.
  intros (c & Hin & Hc)%Exists_exists Hnil.
  assert (c ∈ Re.sub Re.non_alnum [] s) as H by by apply strip_elem_of.
  rewrite Hnil in H. by apply elem_of_nil in H.
Qed.

(** The characters of the set [a-zA-Z0-9] are ASCII and none is a capital
    sigma. *)
Lemma in_range_bounds (lo hi : ascii) (c : N) :
  Re.in_range lo hi c = true ↔ (Re.code lo ≤ c ≤ Re.code hi)%N.
Proof.
  unfold Re.in_range. rewrite andb_true_iff, !N.leb_le. done.
Qed.

Lemma alnum_class_cases (c : N) :
  Re.alnum_class c = true ↔
  ((97 ≤ c ≤ 122) ∨ (65 ≤ c ≤ 90) ∨ (48 ≤ c ≤ 57))%N.
Proof.
  unfold Re.alnum_class. rewrite !orb_true_iff, !in_range_bounds.
  change (Re.code "a") with 97%N. change (Re.code "z") with 122%N.
  change (Re.code "A") with 65%N. change (Re.code "Z") with 90%N.
  change (Re.code "0") with 48%N. change (Re.code "9") with 57%N.
  tauto.
Qed.

Lemma alnum_class_ascii (c : N) :
  Re.alnum_class c = true → Str.is_ascii c = true.
Proof.
  intros H%alnum_class_cases. unfold Str.is_ascii. apply N.ltb_lt. lia.
Qed.

Lemma ascii_lower_cases (c : N) :
  ((65 ≤ c ≤ 90)%N ∧ Str.ascii_lower c = (c + 32)%N)
  ∨ (¬ (65 ≤ c ≤ 90)%N ∧ Str.ascii_lower c = c).
Proof.
  unfold Str.ascii_lower.
  destruct (Re.in_range "A" "Z" c) eqn:E.
  - apply in_range_bounds in E. left. done.
  - right. split; [|done]. intros H.
    apply (in_range_bounds "A" "Z") in H. congruence.
Qed.

Lemma ascii_lower_alnum (c : N) :
  Re.alnum_class c = true → Re.alnum_class (Str.ascii_lower c) = true.
Proof.
  rewrite !alnum_class_cases.
  destruct (ascii_lower_cases c) as [[? ->]|[? ->]]; lia.
Qed.

Lemma ascii_lower_idemp (c : N) :
  Str.ascii_lower (Str.ascii_lower c) = Str.ascii_lower c.
Proof.
  destruct (ascii_lower_cases c) as [[? ->]|[? ->]].
  - destruct (ascii_lower_cases (c + 32)) as [[? ->]|[? ->]]; [lia|done].
  - destruct (ascii_lower_cases c) as [[? ->]|[? ->]]; [lia|done].
Qed.

(** On ASCII text [lower] maps character by character: the database and the
    context of a character play no part. *)
Lemma do_lower_ascii (ucd : unicode_db) (s : str) (i : nat) (rest : str) :
  Forall (λ c, Str.is_ascii c = true) rest →
  Str.do_lower ucd s i rest = map Str.ascii_lower rest.
Proof.
  intros H. revert i.
  induction H as [|c rest Hc _ IH]; intros i; [done|].
  simpl. rewrite IH. unfold Str.lower_ucs4. rewrite Hc.
  destruct (N.eqb_spec c Str.capital_sigma) as [->|_]; [done|done].
Qed.

Lemma lower_ascii (ucd : unicode_db) (s : str) :
  Forall (λ c, Str.is_ascii c = true) s →
  Str.lower ucd s = map Str.ascii_lower s.
Proof. apply do_lower_ascii. Qed.

Lemma lower_alnum (ucd : unicode_db) (s : str) :
  Forall (λ c, Re.alnum_class c = true) s →
  Str.lower ucd s = map Str.ascii_lower s.
Proof.
  intros H. apply lower_ascii.
  eapply Forall_impl; [exact H|]. apply alnum_class_ascii.
Qed.

(** With both options, the processed text is made of lower-case ASCII letters
    and digits, and processing it again leaves it as it is. *)
Lemma processed_text_both (ucd : unicode_db) (text : str) :
  processed_text ucd text true true
  = map Str.ascii_lower (Re.sub Re.non_alnum [] text).
Proof. unfold processed_text. apply lower_alnum, strip_alnum. Qed.

Lemma processed_text_alnum (ucd : unicode_db)
    (text : str) (ignore_case : bool) :
  Forall (λ c, Re.alnum_class c = true)
    (processed_text ucd text ignore_case true).
Proof.
  destruct ignore_case.
  - rewrite processed_text_both. apply Forall_fmap.
    eapply Forall_impl; [apply strip_alnum|]. apply ascii_lower_alnum.
  - apply strip_alnum.
Qed.

Lemma processed_text_idemp (ucd : unicode_db) (text : str) :
  processed_text ucd (processed_text ucd text true true) true true
  = processed_text ucd text true true.
Proof.
  rewrite (processed_text_both ucd (processed_text _ _ _ _)).
  rewrite strip_fixed by apply processed_text_alnum.
  rewrite processed_text_both, <- list_fmap_compose.
  apply list_fmap_ext. intros _ c _. apply ascii_lower_idemp.
Qed.

(** ** The normalized check *)

(** A character that [str.isalnum] rejects is outside the set [a-zA-Z0-9]. *)
Lemma not_isalnum_not_in_class (ucd : unicode_db) (c : N) :
  Str.char_isalnum ucd c = false → Re.alnum_class c = false.
Proof.
  unfold Str.char_isalnum. intros H.
  destruct (Re.alnum_class c) eqn:E; [|done].
  by rewrite (alnum_class_ascii c E) in H.
Qed.

(** C9. A non-empty text without any letter or digit is a palindrome when
    stripping is on, for either value of the case option: the stripped text
    is empty and equals its reversal.  The empty text itself is not. *)
Theorem is_palindrome_without_alnum (ucd : unicode_db)
    (text : str) (ignore_case : bool) :
  text ≠ [] →
  Forall (λ c, Re.alnum_class c = false) text →
  processed_text ucd text ignore_case true = []
  ∧ is_palindrome ucd text ignore_case true = Ok true
  ∧ is_palindrome ucd [] ignore_case true = Ok false.
Proof.
  intros Hne Hall.
  assert (processed_text ucd text ignore_case true = []) as Hp.
  { unfold processed_text. rewrite strip_none by done. by destruct ignore_case. }
  split; [done|]. split; [|done].
  rewrite is_palindrome_eq. cbn zeta. rewrite Hp.
  by destruct text.
Qed.

Lemma is_palindrome_without_alnum_bangs :
  (of_string "!!!" ≠ []
   ∧ Forall (λ c, Re.alnum_class c = false) (of_string "!!!"))
  ∧ processed_text ucd_sample (of_string "!!!") true true = []
  ∧ is_palindrome ucd_sample (of_string "!!!") true true = Ok true
  ∧ is_palindrome ucd_sample [] true true = Ok false.
Proof.
  assert (of_string "!!!" ≠ []) as Hne by discriminate.
  assert (Forall (λ c, Re.alnum_class c = false) (of_string "!!!")) as Hall
    by (repeat constructor).
  split; [done|].
  exact (is_palindrome_without_alnum ucd_sample (of_string "!!!") true Hne Hall).
Defined.

(** C2, as stated, fails on ["!!!"]: the text is a palindrome for
    [is_palindrome], its normalization is the empty string, which is not. *)
Lemma normalization_changes_verdict :
  (∀ ucd, processed_text ucd (of_string "!!!") true true = [])
  ∧ (∀ ucd, is_palindrome ucd (of_string "!!!") true true = Ok true)
  ∧ (∀ ucd,
       is_palindrome ucd (processed_text ucd (of_string "!!!") true true)
         true true = Ok false).
Proof. done. Qed.

(** C2, amended. For every string that is empty or holds at least one ASCII
    letter or digit, [is_palindrome] with both options gives the same verdict
    on the normalized string (stripped, then lower-cased) as on the string. *)
Theorem normalization_keeps_verdict (ucd : unicode_db) (s : str) :
  s = [] ∨ Exists (λ c, Re.alnum_class c = true) s →
  is_palindrome ucd (processed_text ucd s true true) true true
  = is_palindrome ucd s true true.
Proof.
  intros Hs. rewrite !is_palindrome_eq. cbn zeta.
  rewrite processed_text_idemp. do 3 f_equal.
  destruct Hs as [->|Hex]; [done|].
  assert (processed_text ucd s true true ≠ []) as Hp.
  { rewrite processed_text_both. intros H%fmap_nil_inv.
    by apply strip_nonempty in Hex. }
  destruct s; [by apply Exists_nil in Hex|].
  by destruct (processed_text ucd _ true true).
Qed.

Lemma normalization_keeps_verdict_panama :
  (of_string "A man a plan a canal Panama" = []
   ∨ Exists (λ c, Re.alnum_class c = true)
       (of_string "A man a plan a canal Panama"))
  ∧ is_palindrome ucd_sample
      (processed_text ucd_sample (of_string "A man a plan a canal Panama")
         true true) true true
    = is_palindrome ucd_sample (of_string "A man a plan a canal Panama")
        true true.
Proof.
  assert (Exists (λ c, Re.alnum_class c = true)
            (of_string "A man a plan a canal Panama")) as Hex
    by (by apply Exists_cons_hd).
  split; [by right|].
  apply normalization_keeps_verdict. by right.
Defined.

(** C3, as stated, fails on ["é"] (U+00E9, a letter outside ASCII): the
    character is stripped, the text that is compared is empty. *)
Lemma strip_removes_e_acute :
  233%N ∈ [233%N]
  ∧ Str.is_ascii 233 = false
  ∧ Str.char_isalnum ucd_sample 233 = true
  ∧ (∀ ucd ignore_case, processed_text ucd [233%N] ignore_case true = [])
  ∧ (∀ ucd ignore_case, 233%N ∉ processed_text ucd [233%N] ignore_case true).
Proof.
  split; [by apply list_elem_of_here|]. split; [done|]. split; [done|].
  split; intros ucd [|]; [done | done | | ].
  - apply not_elem_of_nil.
  - apply not_elem_of_nil.
Qed.

(** C3, amended. With the strip option, stripping keeps the ASCII letters and
    digits (the code points of [a-z], [A-Z] and [0-9]) in their order and
    removes every other character, letters outside ASCII included: every
    character of the text that is compared is an ASCII letter or digit. *)
Theorem strip_keeps_ascii_alnum_only (ucd : unicode_db)
    (text : str) (ignore_case : bool) :
  processed_text ucd text false true = List.filter Re.alnum_class text
  ∧ (∀ c, c ∈ processed_text ucd text false true
          ↔ c ∈ text ∧ Re.alnum_class c = true)
  ∧ (∀ c, Re.alnum_class c = true
          ↔ (97 ≤ c ≤ 122 ∨ 65 ≤ c ≤ 90 ∨ 48 ≤ c ≤ 57)%N)
  ∧ (∀ c, c ∈ processed_text ucd text ignore_case true →
          Str.is_ascii c = true ∧ Re.alnum_class c = true).
Proof.
  split; [apply strip_filter|].
  split; [apply strip_elem_of|].
  split; [apply alnum_class_cases|].
  intros c Hc.
  pose proof (processed_text_alnum ucd text ignore_case) as Hall.
  rewrite Forall_forall in Hall. specialize (Hall c Hc).
  split; [by apply alnum_class_ascii | done].
Qed.

(** ** The numeric check *)

(** The numeral of [n] denotes [n]: reading it back gives [n]. *)
Lemma decimal_denotes (n : Z) :
  option_map Z.of_int (NilZero.int_of_string (PyInt.decimal n)) = Some n.
Proof.
  unfold PyInt.decimal. rewrite NilZero.isi.
  - simpl. f_equal. apply DecimalZ.of_to.
  - destruct n as [|p|p]; simpl; try discriminate.
    intros [= H]. by apply DecimalPos.Unsigned.to_uint_nonnil in H.
  - destruct n as [|p|p]; simpl; try discriminate.
    intros [= H]. by apply DecimalPos.Unsigned.to_uint_nonnil in H.
Qed.

Lemma digits_of_uint (d : Decimal.uint) :
  Forall (λ c, is_digit c = true) (of_string (NilEmpty.string_of_uint d)).
Proof. induction d; simpl; by constructor. Qed.

Lemma numeral_pos (p : positive) :
  PyInt.numeral (Z.pos p)
  = of_string (NilEmpty.string_of_uint (Pos.to_uint p)).
Proof.
  unfold PyInt.numeral, PyInt.decimal. simpl.
  pose proof (DecimalPos.Unsigned.to_uint_nonnil p) as H.
  by destruct (Pos.to_uint p).
Qed.

(** The sign is kept: the numeral of a negative integer is a minus sign
    followed by the numeral of its absolute value. *)
Lemma numeral_neg (n : Z) :
  n < 0 → PyInt.numeral n = minus_sign :: PyInt.numeral (- n).
Proof.
  intros Hn. destruct n as [|p|p]; try lia.
  change (- Z.neg p) with (Z.pos p). rewrite numeral_pos.
  unfold PyInt.numeral, PyInt.decimal. simpl.
  pose proof (DecimalPos.Unsigned.to_uint_nonnil p) as H.
  by destruct (Pos.to_uint p).
Qed.

Lemma numeral_pos_digits (n : Z) :
  0 < n →
  PyInt.numeral n ≠ [] ∧ Forall (λ c, is_digit c = true) (PyInt.numeral n).
Proof.
  intros Hn. destruct n as [|p|p]; try lia.
  rewrite numeral_pos. split; [|apply digits_of_uint].
  pose proof (DecimalPos.Unsigned.to_uint_nonnil p) as H.
  by destruct (Pos.to_uint p).
Qed.

(** A minus sign in front of digits is not found at the end: the string is
    not its own reversal. *)
Lemma signed_not_reversed (digits : str) :
  digits ≠ [] →
  Forall (λ c, is_digit c = true) digits →
  minus_sign :: digits ≠ reverse (minus_sign :: digits).
Proof.
  intros Hne Hdigits Heq.
  apply (f_equal head) in Heq. rewrite head_reverse in Heq.
  destruct digits as [|d digits _] using rev_ind; [done|].
  rewrite app_comm_cons, last_snoc in Heq.
  apply Forall_app in Hdigits as [_ Hd].
  apply Forall_inv in Hd.
  simpl in Heq. injection Heq as <-. by vm_compute in Hd.
Qed.

(** [str] of an integer: the numeral within the limit, an error beyond. *)
Lemma to_str_within (max_str_digits n : Z) :
  PyInt.exceeds max_str_digits n = false →
  PyInt.to_str max_str_digits n = Ok (PyInt.numeral n).
Proof. unfold PyInt.to_str. by intros ->. Qed.

Lemma to_str_beyond (max_str_digits n : Z) :
  PyInt.exceeds max_str_digits n = true →
  PyInt.to_str max_str_digits n = Raise ValueError.
Proof. unfold PyInt.to_str. by intros ->. Qed.

Lemma exceeds_unlimited (n : Z) : PyInt.exceeds 0 n = false.
Proof. done. Qed.

(** [10 ^ 4300] has 4301 digits, one more than the default limit. *)
Lemma num_digits_pow10_4300 : PyInt.num_digits (10 ^ 4300) = 4301.
Proof. by vm_compute. Qed.

Lemma exceeds_pow10_4300 :
  PyInt.exceeds PyInt.default_max_str_digits (10 ^ 4300) = true
  ∧ PyInt.exceeds PyInt.default_max_str_digits (- 10 ^ 4300) = true.
Proof.
  unfold PyInt.exceeds.
  assert (PyInt.num_digits (- 10 ^ 4300) = PyInt.num_digits (10 ^ 4300)) as ->
    by (unfold PyInt.num_digits; by rewrite Z.abs_opp).
  by rewrite num_digits_pow10_4300.
Qed.

(** C6, as stated, fails under the default limit on conversions: for the
    negative integer [- 10 ^ 4300], of 4301 digits, [str(number)] raises and
    [is_number_palindrome] returns no verdict. *)
Lemma is_number_palindrome_negative_raises :
  is_number_palindrome PyInt.default_max_str_digits (Int (- 10 ^ 4300))
  = Raise ValueError.
Proof.
  unfold is_number_palindrome. cbn [str_of].
  by rewrite to_str_beyond by apply exceeds_pow10_4300.
Qed.

(** C6, amended. [is_number_palindrome] compares the string of its argument
    with the reversal of that string: a [str] argument is taken as it is, an
    [int] within the interpreter's limit on conversions is written as its
    decimal numeral, with its sign.  For a negative integer within the limit
    the minus sign takes part in the comparison and the result is [False]. *)
Theorem is_number_palindrome_keeps_sign (max_str_digits : Z) :
  (∀ x, is_number_palindrome max_str_digits x
        = let! num_str := str_of max_str_digits x in
          Ok (Py.str_eq num_str (reverse num_str)))
  ∧ (∀ s, str_of max_str_digits (Str s) = Ok s)
  ∧ (∀ n, PyInt.exceeds max_str_digits n = false →
          str_of max_str_digits (Int n) = Ok (of_string (PyInt.decimal n))
          ∧ option_map Z.of_int (NilZero.int_of_string (PyInt.decimal n))
            = Some n)
  ∧ (∀ n, n < 0 → PyInt.exceeds max_str_digits n = false →
          str_of max_str_digits (Int n)
          = Ok (minus_sign :: PyInt.numeral (- n))
          ∧ is_number_palindrome max_str_digits (Int n) = Ok false).
Proof.
  split; [apply is_number_palindrome_eq|].
  split; [done|].
  split.
  { intros n Hn. split; [by apply to_str_within | apply decimal_denotes]. }
  intros n Hn Hfits. cbn [str_of].
  rewrite is_number_palindrome_eq. cbn [str_of].
  rewrite to_str_within, numeral_neg by done.
  split; [done|]. cbn [PyMonad.bind]. f_equal. apply str_eq_false.
  destruct (numeral_pos_digits (- n)) as [Hne Hdigits]; [lia|].
  by apply signed_not_reversed.
Qed.

Lemma is_number_palindrome_minus_121 :
  (-121 < 0 ∧ PyInt.exceeds PyInt.default_max_str_digits (-121) = false)
  ∧ str_of PyInt.default_max_str_digits (Int (-121))
    = Ok (minus_sign :: PyInt.numeral (- -121))
  ∧ is_number_palindrome PyInt.default_max_str_digits (Int (-121)) = Ok false.
Proof.
  split; [done|].
  apply (proj2 (proj2 (proj2
           (is_number_palindrome_keeps_sign PyInt.default_max_str_digits)))
           (-121)); done.
Defined.

(** ** Loops *)

(** A loop that adds to a set the items its body finds. *)
Lemma for_each_collect {A : Type} (l : list A)
    (body : A → gset str → result (gset str)) (found : A → list str) :
  (∀ x acc, x ∈ l → body x acc = Ok (list_to_set (found x) ∪ acc)) →
  ∀ acc,
    PyMonad.for_each l body acc = Ok (list_to_set (flat_map found l) ∪ acc).
Proof.
  induction l as [|x l IH]; intros Hbody acc.
  - cbn. by rewrite (left_id_L ∅ (∪)).
  - cbn [PyMonad.for_each flat_map].
    rewrite Hbody by apply list_elem_of_here. cbn [PyMonad.bind].
    rewrite IH by (intros y acc' Hy; apply Hbody; by apply list_elem_of_further).
    f_equal. rewrite list_to_set_app_L.
    rewrite (assoc_L (∪)). f_equal. apply (comm_L (∪)).
Qed.

Lemma elem_of_range (start stop i : Z) :
  i ∈ Py.range start stop ↔ start ≤ i < stop.
Proof. unfold Py.range. rewrite elem_of_seqZ. lia. Qed.

(** ** The search *)

Lemma slice_substr (s : str) (i j : Z) :
  0 ≤ i → Py.slice s (Some i) (Some j) None = Ok (substr s i j).
Proof.
  intros Hi. rewrite <- (Z2Nat.id i) at 1 by done.
  by rewrite slice_forward.
Qed.

Lemma find_palindromes_step_eq (ucd : unicode_db)
    (text text_lower : str) (i j : Z)
    (palindromes : gset str) :
  0 ≤ i →
  find_palindromes_step ucd text text_lower i j palindromes
  = Ok (list_to_set (found_at ucd text text_lower i j) ∪ palindromes).
Proof.
  intros Hi. unfold find_palindromes_step, found_at.
  rewrite !slice_substr by done. cbn [PyMonad.bind].
  destruct (Str.isalnum ucd _); cbn [andb].
  - rewrite slice_reversed. cbn [PyMonad.bind].
    destruct (Py.str_eq _ _); f_equal; cbn [list_to_set].
    + by rewrite (right_id_L ∅ (∪)).
    + by rewrite (left_id_L ∅ (∪)).
  - f_equal. cbn [list_to_set]. by rewrite (left_id_L ∅ (∪)).
Qed.

(** [find_palindromes] returns the set of the strings of [found_list]. *)
Lemma find_palindromes_eq (ucd : unicode_db) (text : str) (min_length : Z) :
  find_palindromes ucd text min_length
  = Ok (if Py.falsy text || (Py.len text <? min_length) then ∅
        else list_to_set (found_list ucd text min_length)).
Proof.
  unfold find_palindromes.
  destruct (Py.falsy text || (Py.len text <? min_length)); [done|].
  cbn zeta. unfold found_list.
  rewrite (for_each_collect _ _
    (λ i, flat_map (found_at ucd text (Str.lower ucd text) i)
            (Py.range (i + min_length) (Py.len (Str.lower ucd text) + 1)))).
  - by rewrite (right_id_L ∅ (∪)).
  - intros i acc Hi%elem_of_range.
    apply for_each_collect. intros j acc' _.
    apply find_palindromes_step_eq. lia.
Qed.

Lemma elem_of_found_list (ucd : unicode_db)
    (text : str) (min_length : Z) (p : str) :
  p ∈ found_list ucd text min_length ↔
  ∃ i j, 0 ≤ i < Py.len (Str.lower ucd text)
         ∧ i + min_length ≤ j ≤ Py.len (Str.lower ucd text)
         ∧ p ∈ found_at ucd text (Str.lower ucd text) i j.
Proof.
  unfold found_list. cbn zeta.
  rewrite list_elem_of_In, in_flat_map. split.
  - intros (i & Hi & Hp). apply in_flat_map in Hp as (j & Hj & Hp).
    apply list_elem_of_In, elem_of_range in Hi, Hj.
    exists i, j. rewrite list_elem_of_In. split; [lia|]. split; [lia|done].
  - intros (i & j & Hi & Hj & Hp).
    exists i. split; [apply list_elem_of_In, elem_of_range; lia|].
    apply in_flat_map. exists j.
    split; [apply list_elem_of_In, elem_of_range; lia|].
    by apply list_elem_of_In.
Qed.

(** ** Which operations raise *)

Lemma generate_palindrome_symmetric_eq (word : str) :
  generate_palindrome_symmetric word = Ok (word ++ reverse (but_last word)).
Proof.
  unfold generate_palindrome_symmetric.
  destruct word as [|c [|c' word]]; [done | done | ].
  cbn [Py.falsy]. unfold Py.len. cbn [length].
  destruct (Z.ltb_spec 1 (Z.of_nat (S (S (length word))))); [|lia].
  by rewrite slice_mirror.
Qed.

(** C8, as stated, fails under the default limit on conversions: on the
    integer [10 ^ 4300], of 4301 digits, [is_number_palindrome] raises. *)
Lemma is_number_palindrome_raises :
  is_number_palindrome PyInt.default_max_str_digits (Int (10 ^ 4300))
  = Raise ValueError.
Proof.
  unfold is_number_palindrome. cbn [str_of].
  by rewrite to_str_beyond by apply exceeds_pow10_4300.
Qed.

(** C8, amended. The operations on strings (and the symmetric generator)
    return a value for every string, every value of the options and every
    integer threshold.  [is_number_palindrome] returns a value for every
    string and for every integer within the interpreter's limit on
    conversions (for every integer when there is no limit); beyond the limit
    it raises a [ValueError]. *)
Theorem operations_total (ucd : unicode_db) (max_str_digits : Z) (text : str)
    (ignore_case ignore_spaces : bool) (min_length : Z) (x : number) :
  (∃ verdict : bool,
     is_palindrome ucd text ignore_case ignore_spaces = Ok verdict)
  ∧ (convertible max_str_digits x = true →
     ∃ verdict : bool, is_number_palindrome max_str_digits x = Ok verdict)
  ∧ (convertible max_str_digits x = false →
     is_number_palindrome max_str_digits x = Raise ValueError)
  ∧ (∃ verdict : bool, is_number_palindrome 0 x = Ok verdict)
  ∧ (∃ verdict : bool, is_strict_palindrome text = Ok verdict)
  ∧ (∃ palindromes : gset str,
       find_palindromes ucd text min_length = Ok palindromes)
  ∧ (∃ palindrome : str, generate_palindrome text = Ok palindrome)
  ∧ (∃ palindrome : str, generate_palindrome_symmetric text = Ok palindrome).
Proof.
  assert (∀ limit, convertible limit x = true →
            ∃ verdict : bool, is_number_palindrome limit x = Ok verdict)
    as Hnumber.
  { intros limit Hx. rewrite is_number_palindrome_eq.
    destruct x as [n|s]; cbn [str_of convertible] in *; [|by eexists].
    apply negb_true_iff in Hx. rewrite to_str_within by done. by eexists. }
  split; [eexists; apply is_palindrome_eq|].
  split; [apply Hnumber|].
  split.
  { intros Hx. destruct x as [n|s]; [|done].
    apply negb_false_iff in Hx. unfold is_number_palindrome. cbn [str_of].
    by rewrite to_str_beyond. }
  split; [apply Hnumber; by destruct x|].
  split; [eexists; apply is_strict_palindrome_eq|].
  split; [eexists; apply find_palindromes_eq|].
  split; eexists.
  - apply generate_palindrome_eq.
  - apply generate_palindrome_symmetric_eq.
Qed.

Lemma operations_total_12321 :
  convertible PyInt.default_max_str_digits (Int 12321) = true
  ∧ ∃ verdict : bool,
      is_number_palindrome PyInt.default_max_str_digits (Int 12321)
      = Ok verdict.
Proof.
  split; [done|].
  apply (proj1 (proj2
           (operations_total ucd_sample PyInt.default_max_str_digits []
              true true 3 (Int 12321)))).
  done.
Defined.

(** ** What the search returns *)

(** On ASCII text the lower-cased text lines up with the text, and every
    string found is alphanumeric and at least [min_length] long. *)
Lemma substr_fmap (f : N → N) (s : str) (i j : Z) :
  substr (map f s) i j = map f (substr s i j).
Proof.
  unfold substr, Py.len. rewrite length_map.
  change (map f) with (fmap (M:=list) f).
  by rewrite fmap_take, fmap_drop.
Qed.

Lemma substr_length (s : str) (i j min_length : Z) :
  0 ≤ i → i + min_length ≤ j ≤ Py.len s → min_length ≤ Py.len (substr s i j).
Proof.
  intros Hi Hj. unfold substr, Py.len in *.
  rewrite length_take, length_drop.
  unfold Py.adjust_index. repeat case_match; cbn in *; lia.
Qed.

Lemma substr_Forall (P : N → Prop) (s : str) (i j : Z) :
  Forall P s → Forall P (substr s i j).
Proof. intros H. unfold substr. by apply Forall_take, Forall_drop. Qed.

Lemma char_isalnum_lower (ucd : unicode_db) (c : N) :
  Str.is_ascii c = true →
  Str.char_isalnum ucd (Str.ascii_lower c) = true →
  Str.char_isalnum ucd c = true.
Proof.
  unfold Str.char_isalnum. intros Hc. rewrite Hc.
  destruct (ascii_lower_cases c) as [[Hr ->]|[_ ->]]; [|by rewrite Hc].
  intros _. apply alnum_class_cases. lia.
Qed.

Lemma isalnum_lower (ucd : unicode_db) (s : str) :
  Forall (λ c, Str.is_ascii c = true) s →
  Str.isalnum ucd (map Str.ascii_lower s) = true →
  Str.isalnum ucd s = true.
Proof.
  unfold Str.isalnum. intros Hs [Hne Hall]%andb_true_iff.
  apply andb_true_iff. split; [by destruct s|].
  rewrite forallb_forall in Hall. apply forallb_forall.
  intros c Hc. rewrite Forall_forall in Hs.
  apply char_isalnum_lower; [by apply Hs, list_elem_of_In|].
  by apply Hall, in_map.
Qed.

Lemma find_palindromes_ascii (ucd : unicode_db) (text : str) (min_length : Z)
    (palindromes : gset str) (p : str) :
  Forall (λ c, Str.is_ascii c = true) text →
  find_palindromes ucd text min_length = Ok palindromes →
  p ∈ palindromes →
  min_length ≤ Py.len p ∧ Str.isalnum ucd p = true.
Proof.
  intros Hascii Hfind Hp.
  rewrite find_palindromes_eq in Hfind. injection Hfind as <-.
  destruct (Py.falsy text || _); [by apply not_elem_of_empty in Hp|].
  apply elem_of_list_to_set, elem_of_found_list in Hp
    as (i & j & Hi & Hj & Hp).
  rewrite lower_ascii in Hi, Hj, Hp by done.
  unfold Py.len in Hi, Hj. rewrite length_map in Hi, Hj.
  unfold found_at in Hp. cbn zeta in Hp. rewrite substr_fmap in Hp.
  destruct (Str.isalnum ucd _) eqn:Halnum; [|by apply elem_of_nil in Hp].
  destruct (Py.str_eq _ _); [|by apply elem_of_nil in Hp].
  apply list_elem_of_singleton in Hp as ->. split.
  - apply substr_length; [lia | done].
  - apply isalnum_lower; [by apply substr_Forall | done].
Qed.

(** Off ASCII the two texts need not line up: U+0130 is lower-cased to two
    code points (U+0069 U+0307), so the indices of the lower-cased text run
    one ahead of those of the text. *)
Lemma lower_dotted_I (ucd : unicode_db) (rest : str) :
  to_lower_full ucd dotted_I = [105; 775]%N →
  Forall (λ c, Str.is_ascii c = true) rest →
  Str.lower ucd (dotted_I :: rest)
  = 105%N :: 775%N :: map Str.ascii_lower rest.
Proof.
  intros Hi Hrest. unfold Str.lower. cbn [Str.do_lower].
  rewrite do_lower_ascii by done.
  unfold Str.lower_ucs4. cbn. by rewrite Hi.
Qed.

(** C5, at ["İaba"] and ["İaba!"] with threshold 3: the search finds the
    palindrome ["aba"] at the indices 2 to 5 of the lower-cased text and
    returns the slice of the text at these indices, ["ba"] (shorter than the
    threshold) and ["ba!"] (not alphanumeric). *)
Theorem find_palindromes_dotted_I (ucd : unicode_db) :
  to_lower_full ucd dotted_I = [105; 775]%N →
  (find_palindromes ucd text_Iaba 3 = Ok {[ of_string "ba" ]}
   ∧ Py.len (of_string "ba") < 3)
  ∧ (find_palindromes ucd text_Iaba_bang 3 = Ok {[ of_string "ba!" ]}
     ∧ Str.isalnum ucd (of_string "ba!") = false).
Proof.
  intros Hi.
  assert (found_list ucd text_Iaba 3 = [of_string "ba"]
          ∧ found_list ucd text_Iaba_bang 3 = [of_string "ba!"])
    as [Hfound Hfound'].
  { unfold found_list, text_Iaba, text_Iaba_bang.
    rewrite !lower_dotted_I by first [done | repeat constructor].
    destruct ucd as [lower_full sigma alnum].
    split; vm_compute; by destruct (alnum 775%N). }
  rewrite !find_palindromes_eq, Hfound, Hfound'.
  cbn [list_to_set]. rewrite !(right_id_L ∅ (∪)).
  done.
Qed.

Lemma find_palindromes_dotted_I_sample :
  to_lower_full ucd_sample dotted_I = [105; 775]%N
  ∧ (find_palindromes ucd_sample text_Iaba 3 = Ok {[ of_string "ba" ]}
     ∧ Py.len (of_string "ba") < 3)
  ∧ (find_palindromes ucd_sample text_Iaba_bang 3 = Ok {[ of_string "ba!" ]}
     ∧ Str.isalnum ucd_sample (of_string "ba!") = false).
Proof.
  split; [done|].
  apply find_palindromes_dotted_I. done.
Defined.

(** ** The checks compared *)

Lemma strip_app (s1 s2 : str) :
  Re.sub Re.non_alnum [] (s1 ++ s2)
  = Re.sub Re.non_alnum [] s1 ++ Re.sub Re.non_alnum [] s2.
Proof.
  induction s1 as [|c s1 IH]; [done|].
  cbn [app Re.sub]. rewrite IH. by destruct (Re.non_alnum c).
Qed.

Lemma strip_reverse (s : str) :
  Re.sub Re.non_alnum [] (reverse s) = reverse (Re.sub Re.non_alnum [] s).
Proof.
  induction s as [|c s IH]; [done|].
  rewrite reverse_cons, strip_app, IH. cbn [Re.sub app].
  destruct (Re.non_alnum c).
  - by rewrite app_nil_r.
  - by rewrite reverse_cons.
Qed.

(** With stripping on, processing the reversed text gives the reversed
    processed text. *)
Lemma processed_text_reverse (ucd : unicode_db) (text : str)
    (ignore_case : bool) :
  processed_text ucd (reverse text) ignore_case true
  = reverse (processed_text ucd text ignore_case true).
Proof.
  destruct ignore_case.
  - rewrite !processed_text_both, strip_reverse.
    apply (fmap_reverse Str.ascii_lower).
  - apply strip_reverse.
Qed.

Lemma falsy_reverse {A : Type} (s : list A) :
  Py.falsy (reverse s) = Py.falsy s.
Proof.
  destruct s as [|x s]; [done|].
  rewrite reverse_cons. by destruct (reverse s).
Qed.

Lemma str_eq_sym (a b : str) : Py.str_eq a b = Py.str_eq b a.
Proof. unfold Py.str_eq. by apply bool_decide_ext. Qed.

Lemma strict_verdict_true (text : str) :
  is_strict_palindrome text = Ok true ↔ text ≠ [] ∧ reverse text = text.
Proof.
  rewrite is_strict_palindrome_eq. split.
  - intros [= [Hne Heq]%andb_true_iff].
    apply negb_true_iff in Hne. apply str_eq_true in Heq.
    split; [|done]. intros ->. done.
  - intros [Hne Heq]. f_equal. apply andb_true_iff. split.
    + by destruct text.
    + by apply str_eq_true.
Qed.

Lemma symmetric_text_is_palindrome (ucd : unicode_db) (text : str)
    (ignore_case : bool) :
  text ≠ [] → reverse text = text →
  is_palindrome ucd text ignore_case true = Ok true.
Proof.
  intros Hne Hrev.
  rewrite is_palindrome_eq. cbn zeta. f_equal.
  apply andb_true_iff. split; [by destruct text|].
  apply str_eq_true.
  by rewrite <- processed_text_reverse, Hrev.
Qed.

(** X1. [is_strict_palindrome] answers [True] exactly on the non-empty texts
    that are equal to their reversal, and [False] on every other text. *)
Theorem is_strict_palindrome_iff (text : str) :
  (is_strict_palindrome text = Ok true ↔ text ≠ [] ∧ reverse text = text)
  ∧ (is_strict_palindrome text = Ok false ↔ text = [] ∨ reverse text ≠ text).
Proof.
  split; [apply strict_verdict_true|].
  rewrite is_strict_palindrome_eq. split.
  - intros [= [Hne|Heq]%andb_false_iff].
    + left. by destruct text.
    + right. apply str_eq_false in Heq. congruence.
  - intros H. f_equal. apply andb_false_iff.
    destruct H as [->|Hne]; [by left|].
    right. apply str_eq_false. congruence.
Qed.

(** X2. With both options off, [is_palindrome] is the strict check. *)
Theorem is_palindrome_no_options (ucd : unicode_db) (text : str) :
  is_palindrome ucd text false false = is_strict_palindrome text.
Proof. by rewrite is_palindrome_eq, is_strict_palindrome_eq. Qed.

(** X3. The verdicts do not depend on the reading direction: the strict check
    and, with stripping on, the normalized check answer on the reversed text
    what they answer on the text. *)
Theorem verdict_of_reversed (ucd : unicode_db) (text : str)
    (ignore_case : bool) :
  is_strict_palindrome (reverse text) = is_strict_palindrome text
  ∧ is_palindrome ucd (reverse text) ignore_case true
    = is_palindrome ucd text ignore_case true.
Proof.
  split.
  - rewrite !is_strict_palindrome_eq, falsy_reverse, reverse_involutive.
    by rewrite str_eq_sym.
  - rewrite !is_palindrome_eq. cbn zeta.
    rewrite falsy_reverse, processed_text_reverse, reverse_involutive.
    by rewrite str_eq_sym.
Qed.

(** X4. A strict palindrome is a palindrome for the normalized check with
    stripping on, with or without case folding. *)
Theorem strict_palindrome_is_palindrome (ucd : unicode_db) (text : str)
    (ignore_case : bool) :
  is_strict_palindrome text = Ok true →
  is_palindrome ucd text ignore_case true = Ok true.
Proof.
  intros [Hne Hrev]%strict_verdict_true.
  by apply symmetric_text_is_palindrome.
Qed.

Lemma strict_palindrome_is_palindrome_abba :
  is_strict_palindrome (of_string "ab, ,ba") = Ok true
  ∧ is_palindrome ucd_sample (of_string "ab, ,ba") true true = Ok true.
Proof.
  assert (is_strict_palindrome (of_string "ab, ,ba") = Ok true) as H
    by done.
  split; [done|].
  by apply strict_palindrome_is_palindrome.
Defined.

Lemma alnum_class_lower (c : N) :
  Re.alnum_class (Str.ascii_lower c) = Re.alnum_class c.
Proof.
  destruct (Re.alnum_class c) eqn:E.
  - by apply ascii_lower_alnum.
  - destruct (ascii_lower_cases c) as [[Hr _]|[_ ->]]; [|done].
    assert (Re.alnum_class c = true) by (apply alnum_class_cases; lia).
    congruence.
Qed.

Lemma strip_lower (s : str) :
  Re.sub Re.non_alnum [] (map Str.ascii_lower s)
  = map Str.ascii_lower (Re.sub Re.non_alnum [] s).
Proof.
  rewrite !strip_filter.
  induction s as [|c s IH]; [done|].
  cbn [map List.filter]. rewrite alnum_class_lower, IH.
  by destruct (Re.alnum_class c).
Qed.

(** On ASCII text, the processed text is a function of the lower-cased text
    when case folding is on. *)
Lemma processed_text_ascii (ucd : unicode_db) (text : str)
    (ignore_spaces : bool) :
  Forall (λ c, Str.is_ascii c = true) text →
  processed_text ucd text true ignore_spaces
  = if ignore_spaces
    then Re.sub Re.non_alnum [] (map Str.ascii_lower text)
    else map Str.ascii_lower text.
Proof.
  intros Hascii. destruct ignore_spaces.
  - by rewrite processed_text_both, strip_lower.
  - by apply lower_ascii.
Qed.

(** X5. On ASCII text the options only relax the check: a strict palindrome
    is a palindrome for every choice of the two options. *)
Theorem ascii_strict_palindrome_any_options (ucd : unicode_db) (text : str)
    (ignore_case ignore_spaces : bool) :
  Forall (λ c, Str.is_ascii c = true) text →
  is_strict_palindrome text = Ok true →
  is_palindrome ucd text ignore_case ignore_spaces = Ok true.
Proof.
  intros Hascii Hstrict.
  destruct ignore_spaces, ignore_case;
    [ by apply symmetric_text_is_palindrome; apply strict_verdict_true
    | by apply symmetric_text_is_palindrome; apply strict_verdict_true
    |
    | by rewrite is_palindrome_eq, <- is_strict_palindrome_eq ].
  apply strict_verdict_true in Hstrict as [Hne Hrev].
  rewrite is_palindrome_eq. cbn zeta. f_equal.
  apply andb_true_iff. split; [by destruct text|].
  apply str_eq_true. rewrite processed_text_ascii by done.
  change (map Str.ascii_lower text) with (Str.ascii_lower <$> text).
  by rewrite <- fmap_reverse, Hrev.
Qed.

Lemma ascii_strict_palindrome_any_options_noon :
  (Forall (λ c, Str.is_ascii c = true) (of_string "No oN")
   ∧ is_strict_palindrome (of_string "No oN") = Ok true)
  ∧ is_palindrome ucd_sample (of_string "No oN") true false = Ok true.
Proof.
  assert (Forall (λ c, Str.is_ascii c = true) (of_string "No oN")) as Hascii
    by (repeat constructor).
  assert (is_strict_palindrome (of_string "No oN") = Ok true) as Hstrict
    by done.
  split; [done|].
  by apply ascii_strict_palindrome_any_options.
Defined.

(** X6. With stripping on, a character that is no ASCII letter or digit can
    be put anywhere into a non-empty text without changing the verdict. *)
Theorem is_palindrome_ignores_punctuation (ucd : unicode_db)
    (before after : str) (c : N) (ignore_case : bool) :
  Re.alnum_class c = false →
  before ++ after ≠ [] →
  is_palindrome ucd (before ++ c :: after) ignore_case true
  = is_palindrome ucd (before ++ after) ignore_case true.
Proof.
  intros Hc Hne. rewrite !is_palindrome_eq. cbn zeta.
  assert (Re.sub Re.non_alnum [] (before ++ c :: after)
          = Re.sub Re.non_alnum [] (before ++ after)) as Hstrip.
  { rewrite !strip_app. cbn [Re.sub app]. unfold Re.non_alnum at 2.
    by rewrite Hc. }
  unfold processed_text. rewrite Hstrip.
  f_equal. f_equal.
  destruct before, after; done.
Qed.

Lemma is_palindrome_ignores_punctuation_comma :
  (Re.alnum_class (Re.code ",") = false
   ∧ of_string "Madam" ++ of_string "Im Adam" ≠ [])
  ∧ is_palindrome ucd_sample
      (of_string "Madam" ++ Re.code "," :: of_string "Im Adam") true true
    = is_palindrome ucd_sample
        (of_string "Madam" ++ of_string "Im Adam") true true.
Proof.
  split; [done|].
  by apply is_palindrome_ignores_punctuation.
Defined.

(** X7. With case folding on, two ASCII texts that differ only in the case of
    their letters get the same verdict, whatever the strip option. *)
Theorem is_palindrome_ignores_ascii_case (ucd : unicode_db) (text1 text2 : str)
    (ignore_spaces : bool) :
  Forall (λ c, Str.is_ascii c = true) text1 →
  Forall (λ c, Str.is_ascii c = true) text2 →
  map Str.ascii_lower text1 = map Str.ascii_lower text2 →
  is_palindrome ucd text1 true ignore_spaces
  = is_palindrome ucd text2 true ignore_spaces.
Proof.
  intros H1 H2 Heq. rewrite !is_palindrome_eq. cbn zeta.
  rewrite !processed_text_ascii, Heq by done.
  f_equal. f_equal.
  apply (f_equal length) in Heq. rewrite !length_map in Heq.
  destruct text1, text2; done.
Qed.

Lemma is_palindrome_ignores_ascii_case_level :
  (Forall (λ c, Str.is_ascii c = true) (of_string "LeVel")
   ∧ Forall (λ c, Str.is_ascii c = true) (of_string "level")
   ∧ map Str.ascii_lower (of_string "LeVel")
     = map Str.ascii_lower (of_string "level"))
  ∧ is_palindrome ucd_sample (of_string "LeVel") true false
    = is_palindrome ucd_sample (of_string "level") true false.
Proof.
  assert (Forall (λ c, Str.is_ascii c = true) (of_string "LeVel")) as H1
    by (repeat constructor).
  assert (Forall (λ c, Str.is_ascii c = true) (of_string "level")) as H2
    by (repeat constructor).
  split; [done|].
  by apply is_palindrome_ignores_ascii_case.
Defined.

(** ** The generator, further *)

(** X8. The string that [generate_palindrome] returns for a non-empty word is
    a palindrome for the normalized check too, with stripping on. *)
Theorem generated_is_palindrome (ucd : unicode_db) (word : str)
    (ignore_case : bool) :
  word ≠ [] →
  PyMonad.bind (generate_palindrome word)
    (λ palindrome, is_palindrome ucd palindrome ignore_case true)
  = Ok true.
Proof.
  intros Hne. rewrite generate_palindrome_eq. cbn [PyMonad.bind].
  apply symmetric_text_is_palindrome; [|apply mirror_reverse].
  by destruct word.
Qed.

Lemma generated_is_palindrome_code :
  of_string "Code" ≠ []
  ∧ PyMonad.bind (generate_palindrome (of_string "Code"))
      (λ palindrome, is_palindrome ucd_sample palindrome false true)
    = Ok true.
Proof.
  split; [discriminate|].
  apply generated_is_palindrome. discriminate.
Defined.

Lemma generated_length (word : str) :
  length (word ++ reverse (but_last word)) = (2 * length word - 1)%nat.
Proof.
  unfold but_last. rewrite length_app, length_reverse, length_take. lia.
Qed.

(** X9. The word is recovered from the string that [generate_palindrome]
    returns, as its first half (the middle character included): two words
    with the same result are the same word. *)
Theorem generate_palindrome_recovers_word (word : str) :
  ∃ palindrome,
    generate_palindrome word = Ok palindrome
    ∧ take ((length palindrome + 1) `div` 2) palindrome = word
    ∧ ∀ word', generate_palindrome word' = Ok palindrome → word' = word.
Proof.
  assert (∀ w : str,
            take ((length (w ++ reverse (but_last w)) + 1) `div` 2)
              (w ++ reverse (but_last w)) = w) as Hhalf.
  { intros w. rewrite generated_length.
    destruct w as [|c w]; [done|].
    replace ((2 * length (c :: w) - 1 + 1) `div` 2)%nat
      with (length (c :: w)).
    - by rewrite take_app_length.
    - cbn [length].
      replace (2 * S (length w) - 1 + 1)%nat with (S (length w) * 2)%nat
        by lia.
      by rewrite Nat.div_mul. }
  eexists. split; [apply generate_palindrome_eq|].
  split; [apply Hhalf|].
  intros word' Hword'. rewrite generate_palindrome_eq in Hword'.
  injection Hword' as Heq.
  rewrite <- (Hhalf word'), <- (Hhalf word). by rewrite Heq.
Qed.

(** X10. The string that [generate_palindrome] returns ends with the reversed
    word, and it is empty for the empty word only. *)
Theorem generate_palindrome_ends_reversed (word : str) :
  ∃ palindrome,
    generate_palindrome word = Ok palindrome
    ∧ reverse word `suffix_of` palindrome
    ∧ (palindrome = [] ↔ word = []).
Proof.
  eexists. split; [apply generate_palindrome_eq|]. split.
  - destruct word as [|c word _] using rev_ind; [by exists []|].
    rewrite but_last_snoc, reverse_snoc.
    exists word. by rewrite <- app_assoc.
  - split.
    + intros H. by apply app_eq_nil in H as [-> _].
    + by intros ->.
Qed.

(** ** The search, further *)

Lemma elem_of_find_palindromes (ucd : unicode_db) (text : str)
    (min_length : Z) (p : str) :
  (∃ palindromes,
     find_palindromes ucd text min_length = Ok palindromes ∧ p ∈ palindromes)
  ↔ Py.falsy text || (Py.len text <? min_length) = false
    ∧ ∃ i j, 0 ≤ i < Py.len (Str.lower ucd text)
             ∧ i + min_length ≤ j ≤ Py.len (Str.lower ucd text)
             ∧ p ∈ found_at ucd text (Str.lower ucd text) i j.
Proof.
  rewrite find_palindromes_eq. split.
  - intros (palindromes & [= <-] & Hp).
    destruct (Py.falsy text || _); [by apply not_elem_of_empty in Hp|].
    split; [done|].
    apply elem_of_list_to_set in Hp. by apply elem_of_found_list in Hp.
  - intros [-> Hp]. eexists. split; [done|].
    apply elem_of_list_to_set. by apply elem_of_found_list.
Qed.

Lemma substr_substring_of (s : str) (i j : Z) : substring_of (substr s i j) s.
Proof.
  unfold substr.
  set (m := Z.to_nat i). set (n := (Z.to_nat _ - m)%nat).
  exists (take m s), (drop n (drop m s)).
  by rewrite take_drop, take_drop.
Qed.

(** X11. Whatever the text and the threshold, [find_palindromes] returns
    runs of consecutive characters of the text only. *)
Theorem find_palindromes_substrings (ucd : unicode_db) (text : str)
    (min_length : Z) :
  ∃ palindromes,
    find_palindromes ucd text min_length = Ok palindromes
    ∧ ∀ p, p ∈ palindromes → substring_of p text.
Proof.
  eexists. split; [apply find_palindromes_eq|].
  intros p Hp.
  destruct (Py.falsy text || _); [by apply not_elem_of_empty in Hp|].
  apply elem_of_list_to_set, elem_of_found_list in Hp
    as (i & j & _ & _ & Hp).
  unfold found_at in Hp. cbn zeta in Hp.
  destruct (_ && _); [|by apply elem_of_nil in Hp].
  apply list_elem_of_singleton in Hp as ->.
  apply substr_substring_of.
Qed.

(** X12. Raising the threshold only removes results: what is found with a
    threshold is found with every lower one. *)
Theorem find_palindromes_antitone (ucd : unicode_db) (text : str)
    (low high : Z) :
  low ≤ high →
  ∃ more fewer,
    find_palindromes ucd text low = Ok more
    ∧ find_palindromes ucd text high = Ok fewer
    ∧ fewer ⊆ more.
Proof.
  intros Hle. eexists _, _.
  split; [apply find_palindromes_eq|]. split; [apply find_palindromes_eq|].
  intros p Hp.
  destruct (Py.falsy text || (Py.len text <? high)) eqn:Hhigh;
    [by apply not_elem_of_empty in Hp|].
  apply orb_false_iff in Hhigh as [Htext Hlen%Z.ltb_ge].
  rewrite Htext. cbn [orb].
  destruct (Z.ltb_spec (Py.len text) low) as [?|_]; [lia|].
  apply elem_of_list_to_set, elem_of_found_list in Hp
    as (i & j & Hi & Hj & Hp).
  apply elem_of_list_to_set, elem_of_found_list.
  exists i, j. split; [done|]. split; [lia|done].
Qed.

Lemma find_palindromes_antitone_racecar :
  3 ≤ 5
  ∧ ∃ more fewer,
      find_palindromes ucd_sample (of_string "racecar") 3 = Ok more
      ∧ find_palindromes ucd_sample (of_string "racecar") 5 = Ok fewer
      ∧ fewer ⊆ more.
Proof.
  split; [lia|].
  apply find_palindromes_antitone. lia.
Defined.

Lemma ascii_lower_is_ascii (c : N) :
  Str.is_ascii c = true → Str.is_ascii (Str.ascii_lower c) = true.
Proof.
  unfold Str.is_ascii. rewrite !N.ltb_lt.
  destruct (ascii_lower_cases c) as [[? ->]|[_ ->]]; lia.
Qed.

Lemma isalnum_lower_eq (ucd : unicode_db) (s : str) :
  Forall (λ c, Str.is_ascii c = true) s →
  Str.isalnum ucd (map Str.ascii_lower s) = Str.isalnum ucd s.
Proof.
  intros Hs. unfold Str.isalnum. f_equal; [by destruct s|].
  induction Hs as [|c s Hc _ IH]; [done|].
  cbn [map forallb]. rewrite IH. f_equal.
  unfold Str.char_isalnum.
  by rewrite ascii_lower_is_ascii, Hc, alnum_class_lower.
Qed.

Lemma substr_middle (before p after : str) :
  substr (before ++ p ++ after) (Py.len before) (Py.len before + Py.len p)
  = p.
Proof.
  unfold substr, Py.len, Py.adjust_index. rewrite !length_app.
  destruct (Z.ltb_spec (Z.of_nat (length before) + Z.of_nat (length p)) 0);
    [lia|].
  rewrite Nat2Z.id, drop_app_length.
  destruct (Z.leb_spec
              (Z.of_nat (length before + (length p + length after)))
              (Z.of_nat (length before) + Z.of_nat (length p))).
  - cbn. assert (length after = 0%nat) as Hafter by lia.
    apply length_zero_iff_nil in Hafter as ->.
    rewrite app_nil_r. apply firstn_all2. lia.
  - replace (Z.to_nat (Z.of_nat (length before) + Z.of_nat (length p))
             - length before)%nat with (length p) by lia.
    apply take_app_length.
Qed.

(** X13. On ASCII text [find_palindromes] returns exactly the runs of
    consecutive characters of the text that are at least [min_length] long,
    alphanumeric, and equal to their reversal once lower-cased. *)
Theorem find_palindromes_ascii_exactly (ucd : unicode_db) (text : str)
    (min_length : Z) :
  Forall (λ c, Str.is_ascii c = true) text →
  ∃ palindromes,
    find_palindromes ucd text min_length = Ok palindromes
    ∧ ∀ p, p ∈ palindromes
           ↔ substring_of p text
             ∧ min_length ≤ Py.len p
             ∧ Str.isalnum ucd p = true
             ∧ reverse (map Str.ascii_lower p) = map Str.ascii_lower p.
Proof.
  intros Hascii. eexists. split; [apply find_palindromes_eq|].
  intros p. split.
  - intros Hp.
    destruct (Py.falsy text || _); [by apply not_elem_of_empty in Hp|].
    apply elem_of_list_to_set, elem_of_found_list in Hp
      as (i & j & Hi & Hj & Hp).
    rewrite lower_ascii in Hi, Hj, Hp by done.
    unfold Py.len in Hi, Hj. rewrite length_map in Hi, Hj.
    unfold found_at in Hp. cbn zeta in Hp. rewrite substr_fmap in Hp.
    destruct (Str.isalnum ucd _) eqn:Halnum; [|by apply elem_of_nil in Hp].
    destruct (Py.str_eq _ _) eqn:Hrev; [|by apply elem_of_nil in Hp].
    apply list_elem_of_singleton in Hp as ->.
    split; [apply substr_substring_of|].
    split; [apply substr_length; [lia | done]|].
    split; [by rewrite <- isalnum_lower_eq by by apply substr_Forall|].
    symmetry. by apply str_eq_true.
  - intros ((before & after & ->) & Hlen & Halnum & Hrev).
    assert (p ≠ []) as Hne by (intros ->; done).
    assert (Forall (λ c, Str.is_ascii c = true) p) as Hp.
    { apply Forall_app in Hascii as [_ Hascii].
      by apply Forall_app in Hascii as [Hascii _]. }
    assert (Py.falsy (before ++ p ++ after)
            || (Py.len (before ++ p ++ after) <? min_length) = false) as ->.
    { apply orb_false_iff. split.
      - destruct before; [by destruct p | done].
      - apply Z.ltb_ge. unfold Py.len in *. rewrite !length_app. lia. }
    apply elem_of_list_to_set, elem_of_found_list.
    exists (Py.len before), (Py.len before + Py.len p).
    rewrite lower_ascii by done.
    assert (0 < Py.len p) as Hpos.
    { unfold Py.len. destruct p; [done | cbn [length]; lia]. }
    assert (Py.len (map Str.ascii_lower (before ++ p ++ after))
            = Py.len before + Py.len p + Py.len after) as ->.
    { unfold Py.len. rewrite length_map, !length_app. lia. }
    assert (0 ≤ Py.len before ∧ 0 ≤ Py.len after) as [??]
      by (unfold Py.len; lia).
    split; [lia|]. split; [lia|].
    unfold found_at. cbn zeta. rewrite substr_fmap, !substr_middle.
    rewrite isalnum_lower_eq, Halnum by done. cbn [andb].
    assert (Py.str_eq (map Str.ascii_lower p)
              (reverse (map Str.ascii_lower p)) = true) as ->
      by (by apply str_eq_true).
    apply list_elem_of_here.
Qed.

Lemma find_palindromes_ascii_exactly_racecar :
  Forall (λ c, Str.is_ascii c = true) (of_string "Racecar")
  ∧ ∃ palindromes,
      find_palindromes ucd_sample (of_string "Racecar") 3 = Ok palindromes
      ∧ ∀ p, p ∈ palindromes
             ↔ substring_of p (of_string "Racecar")
               ∧ 3 ≤ Py.len p
               ∧ Str.isalnum ucd_sample p = true
               ∧ reverse (map Str.ascii_lower p) = map Str.ascii_lower p.
Proof.
  assert (Forall (λ c, Str.is_ascii c = true) (of_string "Racecar")) as H
    by (repeat constructor).
  split; [done|].
  by apply find_palindromes_ascii_exactly.
Defined.

(** ** The numeric check, further *)

(** X14. On a non-empty string, [is_number_palindrome] answers what the
    strict check answers; on the empty string it answers [True], where the
    strict check answers [False].  The limit on conversions plays no part
    for a string. *)
Theorem is_number_palindrome_on_strings (max_str_digits : Z) (s : str) :
  s ≠ [] →
  is_number_palindrome max_str_digits (Str s) = is_strict_palindrome s
  ∧ is_number_palindrome max_str_digits (Str []) = Ok true
  ∧ is_strict_palindrome [] = Ok false.
Proof.
  intros Hne. split; [|done].
  rewrite is_number_palindrome_eq, is_strict_palindrome_eq.
  cbn [str_of PyMonad.bind]. by destruct s.
Qed.

Lemma is_number_palindrome_on_strings_010 :
  of_string "010" ≠ []
  ∧ is_number_palindrome PyInt.default_max_str_digits (Str (of_string "010"))
    = is_strict_palindrome (of_string "010")
  ∧ is_number_palindrome PyInt.default_max_str_digits (Str []) = Ok true
  ∧ is_strict_palindrome [] = Ok false.
Proof.
  split; [discriminate|].
  apply is_number_palindrome_on_strings. discriminate.
Defined.
